(** * IntroductionToFastAPI: the item-list handlers, embedded and verified

    The repository holds three small FastAPI applications.  Two of them
    ([custom_base_model/main.py] and [simple_server/main.py]) keep a module
    level Python list [items] and expose three handlers over it:
    [create_item], [list_items] and [get_item].  This file embeds those
    handlers as state-passing functions over the list and proves the
    request/response contract of the services about them.  The third
    ([image_server/main.py]) hands a file to OpenCV and streams what the
    encoder gives back; its handler is embedded over an abstract decoder
    and encoder, and what the bytes are rests on the encoder's contract.

    Conventions of the embedding:
    - a Python [int] is a [Z]; [len] of a list is a [Z];
    - the module global [items] is the state threaded through a handler;
      a handler is a function from the list before the call to the outcome
      of the call and the list after it;
    - [raise] is an outcome of its own: a handler either returns a value or
      raises an exception, and the list it leaves behind is kept in both
      cases;
    - [return items] hands the framework the list as it is when the handler
      returns, which is what gets serialised into the response. *)

From Stdlib Require Import ZArith Floats.
From Stdlib.Strings Require Import Byte Ascii.
From stdpp Require Import base tactics option list numbers strings pretty.

Local Open Scope Z_scope.

(** ** Python primitives used by the handlers *)

Module Py.

(** The exceptions a handler of these applications can end with:
    [fastapi.HTTPException(status_code, detail)], raised by the code, the
    [IndexError] of a list subscript out of range, and the [cv2.error] of
    an OpenCV call on an image that was not read. *)
Inductive exn : Type :=
| HTTPException (status_code : Z) (detail : string)
| IndexError
| cv2_error.

Inductive outcome (A : Type) : Type :=
| Return (a : A)
| Raise (e : exn).
Arguments Return {A} a.
Arguments Raise {A} e.

(** A handler over a store of type [S]. *)
Definition M (S A : Type) : Type := S -> outcome A * S.

Definition ret {S A} (a : A) : M S A := fun s => (Return a, s).

Definition bind {S A B} (m : M S A) (k : A -> M S B) : M S B :=
  fun s =>
    match m s with
    | (Return a, s') => k a s'
    | (Raise e, s') => (Raise e, s')
    end.

Definition raise {S A} (e : exn) : M S A := fun s => (Raise e, s).

(** Reading the global, and [items.append(x)]. *)
Definition read {S} : M S S := fun s => (Return s, s).

Definition append {A} (x : A) : M (list A) unit :=
  fun items => (Return tt, items ++ [x]).

(** [len(l)]. *)
Definition len {A} (l : list A) : Z := Z.of_nat (length l).

(** One bound of a slice with step 1, as CPython's
    [PySlice_AdjustIndices] clips it: a negative bound counts from the
    end and stops at 0, a bound past the end stops at the length. *)
Definition adjust_index (length i : Z) : Z :=
  if i <? 0 then
    let i := i + length in
    if i <? 0 then 0 else i
  else if i >=? length then length
  else i.

(** [l[start:stop]]: a fresh list of the elements from the clipped
    [start] up to the clipped [stop]; never an error. *)
Definition slice {A} (l : list A) (start stop : Z) : list A :=
  let start := adjust_index (len l) start in
  let stop := adjust_index (len l) stop in
  if start <? stop
  then take (Z.to_nat (stop - start)) (drop (Z.to_nat start) l)
  else [].

(** [l[i]]: a negative subscript counts from the end; [None] stands for
    the [IndexError] of a subscript out of range. *)
Definition getitem {A} (l : list A) (i : Z) : option A :=
  let i := if i <? 0 then i + len l else i in
  if (i <? 0) || (i >=? len l) then None else l !! Z.to_nat i.

(** [str(i)], which is how an f-string renders [{i}] for an [int]:
    decimal digits, with a leading minus sign for a negative number. *)
Definition str (i : Z) : string := pretty i.

End Py.

Import Py.

(** The handlers are written with stdpp's monadic notations:
    [x ← m; k] runs [m] and binds its value, [m;; k] drops it. *)
#[global] Instance M_ret {S} : MRet (M S) := @ret S.
#[global] Instance M_bind {S} : MBind (M S) := fun A B k m => bind m k.

(** ** custom_base_model/main.py: the typed service *)

Module custom_base_model.

(** [class Item(BaseModel)]: [name] and [price] are required,
    [description] is [str | None] and [quantity] is an [int]. *)
Record Item : Type := {
  name : string;
  description : option string;
  price : float;
  quantity : Z
}.

(** Building an [Item] from the fields a request body carries.  A field
    of the class that has a default may be absent from the body ([None]
    here); it then takes the default the class declares:
    [description = None] and [quantity = 1]. *)
Definition Item_new (name : string) (description : option (option string))
    (price : float) (quantity : option Z) : Item :=
  {| name := name;
     description := default None description;
     price := price;
     quantity := default 1 quantity |}.

Definition create_item (item : Item) : M (list Item) (list Item) :=
  append item;;
  items ← read;
  ret items.

Definition list_items (limit : option Z) : M (list Item) (list Item) :=
  items ← read;
  match limit with
  | Some limit => ret (slice items 0 limit)
  | None => ret items
  end.

Definition get_item (item_id : Z) : M (list Item) Item :=
  items ← read;
  if (item_id <? 0) || (item_id >=? len items) then
    raise (HTTPException 404 ("Item " +:+ str item_id +:+ " not found"))
  else
    match getitem items item_id with
    | Some item => ret item
    | None => raise IndexError
    end.

(** The routes of [app]: [POST /items], [GET /items?limit=] and
    [GET /items/{item_id}], each bound to its handler by the decorator
    above it. *)
Inductive request : Type :=
| POST_items (item : Item)
| GET_items (limit : option Z)
| GET_items_id (item_id : Z).

Inductive response : Type :=
| Many (items : list Item)
| One (item : Item).

Definition handle (r : request) : M (list Item) response :=
  match r with
  | POST_items item => items ← create_item item; ret (Many items)
  | GET_items limit => items ← list_items limit; ret (Many items)
  | GET_items_id item_id => item ← get_item item_id; ret (One item)
  end.

(** The list after serving the requests [rs] one after the other,
    whatever each of them answered. *)
Definition serve (rs : list request) (items : list Item) : list Item :=
  foldl (fun items r => (handle r items).2) items rs.

(** The bodies of the [POST /items] requests among [rs], in the order of
    the requests; used to state what a run of requests leaves behind. *)
Definition posted (rs : list request) : list Item :=
  omap (fun r => match r with POST_items item => Some item | _ => None end) rs.

End custom_base_model.

(** ** simple_server/main.py: the untyped service *)

Module simple_server.

Definition root : M (list string) (list (string * string)) :=
  ret [("message", "Hello, World! :)")]%string.

Definition create_item (item : string) : M (list string) (list string) :=
  append item;;
  items ← read;
  ret items.

Definition list_items (limit : option Z) : M (list string) (list string) :=
  items ← read;
  match limit with
  | Some limit => ret (slice items 0 limit)
  | None => ret items
  end.

Definition get_item (item_id : Z) : M (list string) string :=
  items ← read;
  if (item_id <? 0) || (item_id >=? len items) then
    raise (HTTPException 404
             ("Index " +:+ str item_id +:+ " out of range " +:+ str (len items)))
  else
    match getitem items item_id with
    | Some item => ret item
    | None => raise IndexError
    end.

(** The routes of [app]: [GET /], [POST /items?item=],
    [GET /items?limit=] and [GET /items/{item_id}]. *)
Inductive request : Type :=
| GET_root
| POST_items (item : string)
| GET_items (limit : option Z)
| GET_items_id (item_id : Z).

Inductive response : Type :=
| Message (body : list (string * string))
| Many (items : list string)
| One (item : string).

Definition handle (r : request) : M (list string) response :=
  match r with
  | GET_root => body ← root; ret (Message body)
  | POST_items item => items ← create_item item; ret (Many items)
  | GET_items limit => items ← list_items limit; ret (Many items)
  | GET_items_id item_id => item ← get_item item_id; ret (One item)
  end.

Definition serve (rs : list request) (items : list string) : list string :=
  foldl (fun items r => (handle r items).2) items rs.

(** The [item] parameters of the [POST /items] requests among [rs], in the
    order of the requests. *)
Definition posted (rs : list request) : list string :=
  omap (fun r => match r with POST_items item => Some item | _ => None end) rs.

End simple_server.

(** ** Strings without a blank

    The details of the 404 answers put the decimal rendering of an integer
    between fixed words; [no_space] is what makes them readable back. *)

Fixpoint no_space (s : string) : Prop :=
  match s with
  | EmptyString => True
  | String c s => c <> " "%char /\ no_space s
  end.

(** ** image_server/main.py: the image service *)

Module image_server.

(** What [StreamingResponse(content, media_type=...)] carries here: the
    bytes of the body and the content type. *)
Record StreamingResponse : Type := {
  body : list Byte.byte;
  media_type : string
}.

Definition root {S} : M S (list (string * string)) :=
  ret [("message", "Meeeeh")]%string.

(** The eight bytes a PNG stream starts with: 89 50 4E 47 0D 0A 1A 0A. *)
Definition png_signature : list Byte.byte :=
  [x89; x50; x4e; x47; x0d; x0a; x1a; x0a].

(** Modelled from the spec: OpenCV's encoder is not part of the sources.
    The spec has the asset re-encoded as PNG, and the extension handed to
    [imencode] is what selects the output format; what is taken from that
    is that the buffer encoded for [.png] begins with the PNG signature,
    whatever the image. *)
Definition encodes_png {image : Type}
    (imencode : string -> image -> list Byte.byte) : Prop :=
  forall img, take 8%nat (imencode ".png" img) = png_signature.

Section cv2.
(** OpenCV and the file it reads are not part of the sources:
    [imread path] is the decoded image or [None] when the file cannot
    be read, and [imencode ext img] is the byte buffer of the encoded
    image. *)
Context {image : Type}.
Variable imread : string -> option image.
Variable imencode : string -> image -> list Byte.byte.

Definition get_image {S} : M S StreamingResponse :=
  match imread "sheep.jpg" with
  | Some img =>
      let buf := imencode ".png" img in
      ret {| body := buf; media_type := "image/png" |}
  | None => raise cv2_error
  end.

(** The handler adds nothing of its own to the bytes: when the file is
    read, the body is the encoder's output for the extension [.png] and
    the content type is [image/png]. *)
Lemma get_image_streams_encoder_output {S} (s : S) img :
  imread "sheep.jpg" = Some img ->
  get_image s
  = (Return {| body := imencode ".png" img; media_type := "image/png" |}, s).
Proof. intros Hread. unfold get_image. by rewrite Hread. Qed.

End cv2.

End image_server.

(** ** Facts about the Python primitives *)

Ltac run_handler :=
  unfold custom_base_model.handle, simple_server.handle,
    custom_base_model.create_item, custom_base_model.list_items,
    custom_base_model.get_item, simple_server.create_item,
    simple_server.list_items, simple_server.get_item, simple_server.root,
    mbind, M_bind, mret, M_ret, bind, ret, read, append, raise;
  cbn beta iota.

Section primitives.
Context {A : Type}.
Implicit Types (l : list A) (i k : Z).

Lemma len_nonneg l : 0 <= len l.
Proof. unfold len. lia. Qed.

Lemma adjust_index_nonneg n k :
  0 <= n -> 0 <= k -> adjust_index n k = Z.min k n.
Proof.
  intros Hn Hk. unfold adjust_index.
  destruct (Z.ltb_spec k 0); [lia|].
  unfold Z.geb. destruct (Z.compare_spec k n); lia.
Qed.

Lemma adjust_index_neg n k :
  0 <= n -> k < 0 -> adjust_index n k = Z.max (n + k) 0.
Proof.
  intros Hn Hk. unfold adjust_index.
  destruct (Z.ltb_spec k 0); [|lia].
  destruct (Z.ltb_spec (k + n) 0); lia.
Qed.

(** [l[0:stop]] is the prefix of [l] that the clipped [stop] gives. *)
Lemma slice_0 l stop :
  slice l 0 stop = take (Z.to_nat (adjust_index (len l) stop)) l.
Proof.
  pose proof (len_nonneg l) as Hl. unfold slice.
  rewrite (adjust_index_nonneg (len l) 0) by lia.
  rewrite Z.min_l by lia. rewrite Z.sub_0_r. cbn [Z.to_nat drop].
  destruct (Z.ltb_spec 0 (adjust_index (len l) stop)) as [|Hle]; [done|].
  replace (Z.to_nat _) with 0%nat by lia. done.
Qed.

Lemma slice_0_nonneg l k :
  0 <= k -> slice l 0 k = take (Z.to_nat (Z.min k (len l))) l.
Proof.
  intros Hk. rewrite slice_0, adjust_index_nonneg; auto using len_nonneg.
Qed.

Lemma slice_0_neg l k :
  k < 0 -> slice l 0 k = take (Z.to_nat (Z.max (len l + k) 0)) l.
Proof.
  intros Hk. rewrite slice_0, adjust_index_neg; auto using len_nonneg.
Qed.

Lemma len_take_min l k :
  0 <= k -> len (take (Z.to_nat (Z.min k (len l))) l) = Z.min k (len l).
Proof. intros Hk. unfold len. rewrite length_take. lia. Qed.

(** Inside the bounds the subscript finds the element at that position. *)
Lemma getitem_in_range l i :
  0 <= i < len l ->
  exists x, l !! Z.to_nat i = Some x /\ getitem l i = Some x.
Proof.
  intros [Hlo Hhi]. unfold getitem.
  assert ((i <? 0) = false) as Hlt by (apply Z.ltb_ge; lia).
  assert ((i >=? len l) = false) as Hge
    by (destruct (Z.geb_spec i (len l)); [lia|done]).
  rewrite Hlt. cbn zeta iota. rewrite Hlt, Hge. cbn [orb].
  destruct (lookup_lt_is_Some_2 l (Z.to_nat i)) as [x Hx].
  { unfold len in Hhi. lia. }
  eauto.
Qed.

(** The guard of [get_item], as a proposition. *)
Lemma out_of_range_spec l i :
  (i <? 0) || (i >=? len l) = true <-> i < 0 \/ i >= len l.
Proof.
  destruct (Z.ltb_spec i 0), (Z.geb_spec i (len l)); cbn; split;
    intros; try done; lia.
Qed.

Lemma in_range_spec l i :
  (i <? 0) || (i >=? len l) = false <-> 0 <= i < len l.
Proof.
  destruct (Z.ltb_spec i 0), (Z.geb_spec i (len l)); cbn; split;
    intros; try done; lia.
Qed.

End primitives.

(** ** The handlers, one at a time

    Each handler is first characterised over an arbitrary list, once per
    service; the statements of the contract below are assembled from these
    equations. *)

Section typed.
Import custom_base_model.
Implicit Types (items : list Item) (item : Item).

Lemma typed_create_item_eq item items :
  create_item item items = (Return (items ++ [item]), items ++ [item]).
Proof. reflexivity. Qed.

Lemma typed_list_items_none_eq items :
  list_items None items = (Return items, items).
Proof. reflexivity. Qed.

Lemma typed_list_items_some_eq limit items :
  list_items (Some limit) items = (Return (slice items 0 limit), items).
Proof. reflexivity. Qed.

Lemma typed_get_item_out_eq item_id items :
  item_id < 0 \/ item_id >= len items ->
  get_item item_id items =
    (Raise (HTTPException 404 ("Item " +:+ str item_id +:+ " not found")),
     items).
Proof.
  intros Hout%out_of_range_spec. run_handler. by rewrite Hout.
Qed.

Lemma typed_get_item_in_eq item_id items :
  0 <= item_id < len items ->
  exists item, items !! Z.to_nat item_id = Some item
               /\ get_item item_id items = (Return item, items).
Proof.
  intros Hin. destruct (getitem_in_range items item_id Hin) as (x & Hx & Hg).
  exists x. split; [done|].
  apply in_range_spec in Hin. run_handler. by rewrite Hin, Hg.
Qed.

Lemma typed_get_item_state item_id items : (get_item item_id items).2 = items.
Proof.
  destruct (Z.lt_ge_cases item_id 0) as [?|?];
    [by rewrite typed_get_item_out_eq by lia|].
  destruct (Z.lt_ge_cases item_id (len items)) as [?|?];
    [|by rewrite typed_get_item_out_eq by lia].
  destruct (typed_get_item_in_eq item_id items) as (x & _ & ->); [lia|done].
Qed.

Lemma typed_handle_state r items :
  (handle r items).2 = items
  \/ exists item, r = POST_items item /\ (handle r items).2 = items ++ [item].
Proof.
  destruct r as [item|[limit|]|item_id]; [right; by exists item|by left..|].
  left. pose proof (typed_get_item_state item_id items) as Hs.
  unfold handle, mbind, M_bind, bind.
  by destruct (get_item item_id items) as [[?|?] ?].
Qed.

Lemma typed_serve_extends rs items : items `prefix_of` serve rs items.
Proof.
  revert items. induction rs as [|r rs IH]; intros items; [done|].
  cbn [serve foldl]. etrans; [|apply IH].
  destruct (typed_handle_state r items) as [->|(x & _ & ->)];
    [done|by apply prefix_app_r].
Qed.

Lemma typed_serve_creates xs items : serve (POST_items <$> xs) items = items ++ xs.
Proof.
  revert items. induction xs as [|x xs IH]; intros items.
  - by rewrite app_nil_r.
  - cbn [fmap list_fmap serve foldl]. change (foldl _ ?s ?rs) with (serve rs s).
    rewrite IH. change (handle (POST_items x) items).2 with (items ++ [x]).
    by rewrite <- app_assoc.
Qed.

End typed.

Section untyped.
Import simple_server.
Implicit Types (items : list string) (item : string).

Lemma untyped_create_item_eq item items :
  create_item item items = (Return (items ++ [item]), items ++ [item]).
Proof. reflexivity. Qed.

Lemma untyped_list_items_none_eq items :
  list_items None items = (Return items, items).
Proof. reflexivity. Qed.

Lemma untyped_list_items_some_eq limit items :
  list_items (Some limit) items = (Return (slice items 0 limit), items).
Proof. reflexivity. Qed.

Lemma untyped_get_item_out_eq item_id items :
  item_id < 0 \/ item_id >= len items ->
  get_item item_id items =
    (Raise (HTTPException 404
              ("Index " +:+ str item_id +:+ " out of range "
                 +:+ str (len items))),
     items).
Proof.
  intros Hout%out_of_range_spec. run_handler. by rewrite Hout.
Qed.

Lemma untyped_get_item_in_eq item_id items :
  0 <= item_id < len items ->
  exists item, items !! Z.to_nat item_id = Some item
               /\ get_item item_id items = (Return item, items).
Proof.
  intros Hin. destruct (getitem_in_range items item_id Hin) as (x & Hx & Hg).
  exists x. split; [done|].
  apply in_range_spec in Hin. run_handler. by rewrite Hin, Hg.
Qed.

Lemma untyped_get_item_state item_id items : (get_item item_id items).2 = items.
Proof.
  destruct (Z.lt_ge_cases item_id 0) as [?|?];
    [by rewrite untyped_get_item_out_eq by lia|].
  destruct (Z.lt_ge_cases item_id (len items)) as [?|?];
    [|by rewrite untyped_get_item_out_eq by lia].
  destruct (untyped_get_item_in_eq item_id items) as (x & _ & ->); [lia|done].
Qed.

Lemma untyped_handle_state r items :
  (handle r items).2 = items
  \/ exists item, r = POST_items item /\ (handle r items).2 = items ++ [item].
Proof.
  destruct r as [|item|[limit|]|item_id];
    [by left|right; by exists item|by left..|].
  left. pose proof (untyped_get_item_state item_id items) as Hs.
  unfold handle, mbind, M_bind, bind.
  by destruct (get_item item_id items) as [[?|?] ?].
Qed.

Lemma untyped_serve_extends rs items : items `prefix_of` serve rs items.
Proof.
  revert items. induction rs as [|r rs IH]; intros items; [done|].
  cbn [serve foldl]. etrans; [|apply IH].
  destruct (untyped_handle_state r items) as [->|(x & _ & ->)];
    [done|by apply prefix_app_r].
Qed.

Lemma untyped_serve_creates xs items : serve (POST_items <$> xs) items = items ++ xs.
Proof.
  revert items. induction xs as [|x xs IH]; intros items.
  - by rewrite app_nil_r.
  - cbn [fmap list_fmap serve foldl]. change (foldl _ ?s ?rs) with (serve rs s).
    rewrite IH. change (handle (POST_items x) items).2 with (items ++ [x]).
    by rewrite <- app_assoc.
Qed.

End untyped.

(** ** The contract of the item services *)

(** C1. Whatever the list holds and whatever the item, [create_item]
    appends the item at the end and returns the whole updated list, in
    insertion order: the value returned is the previous list with the item
    appended, and so is the list left behind.  Hence after any sequence of
    creates on a fresh process, [list_items] without a limit returns
    exactly the created items in the order of their creation.  Both
    services. *)
Theorem create_item_appends :
  (forall (item : custom_base_model.Item) (items : list custom_base_model.Item),
      custom_base_model.create_item item items
      = (Return (items ++ [item]), items ++ [item]))
  /\ (forall xs : list custom_base_model.Item,
        custom_base_model.list_items None
          (custom_base_model.serve (custom_base_model.POST_items <$> xs) [])
        = (Return xs, xs))
  /\ (forall (item : string) (items : list string),
        simple_server.create_item item items
        = (Return (items ++ [item]), items ++ [item]))
  /\ (forall xs : list string,
        simple_server.list_items None
          (simple_server.serve (simple_server.POST_items <$> xs) [])
        = (Return xs, xs)).
Proof.
  split_and!.
  - apply typed_create_item_eq.
  - intros xs.
    by rewrite typed_serve_creates, typed_list_items_none_eq.
  - apply untyped_create_item_eq.
  - intros xs.
    by rewrite untyped_serve_creates, untyped_list_items_none_eq.
Qed.

(** C2. For every list and every integer index [i], [get_item i] returns
    an item exactly when [0 <= i < len items], the item returned is the one
    at position [i], and the call ends with an [HTTPException] of status
    404 exactly when [i < 0] or [i >= len items].  Both services. *)
Theorem get_item_in_range_iff :
  (forall (items : list custom_base_model.Item) (i : Z),
      (0 <= i < len items
       <-> exists item, custom_base_model.get_item i items = (Return item, items))
      /\ (forall item,
            (custom_base_model.get_item i items).1 = Return item ->
            items !! Z.to_nat i = Some item)
      /\ (i < 0 \/ i >= len items
          <-> exists detail,
              custom_base_model.get_item i items
              = (Raise (HTTPException 404 detail), items)))
  /\ (forall (items : list string) (i : Z),
        (0 <= i < len items
         <-> exists item, simple_server.get_item i items = (Return item, items))
        /\ (forall item,
              (simple_server.get_item i items).1 = Return item ->
              items !! Z.to_nat i = Some item)
        /\ (i < 0 \/ i >= len items
            <-> exists detail,
                simple_server.get_item i items
                = (Raise (HTTPException 404 detail), items))).
Proof.
  split; intros items i.
  - destruct (decide (0 <= i < len items)) as [Hin|Hout].
    + destruct (typed_get_item_in_eq i items Hin) as (x & Hx & Heq).
      rewrite Heq. split_and!.
      * split; eauto.
      * cbn. by intros item [= <-].
      * split; [lia|]. by intros [d [=]].
    + assert (i < 0 \/ i >= len items) as Hout' by lia.
      rewrite (typed_get_item_out_eq i items Hout'). split_and!.
      * split; [done|]. by intros [x [=]].
      * by cbn.
      * split; eauto.
  - destruct (decide (0 <= i < len items)) as [Hin|Hout].
    + destruct (untyped_get_item_in_eq i items Hin) as (x & Hx & Heq).
      rewrite Heq. split_and!.
      * split; eauto.
      * cbn. by intros item [= <-].
      * split; [lia|]. by intros [d [=]].
    + assert (i < 0 \/ i >= len items) as Hout' by lia.
      rewrite (untyped_get_item_out_eq i items Hout'). split_and!.
      * split; [done|]. by intros [x [=]].
      * by cbn.
      * split; eauto.
Qed.

(** C3. For every list and every limit [k >= 0], [list_items] with
    [limit = k] returns exactly the first [min k (len items)] items; a limit
    at or beyond the length returns the whole list and is no error; with no
    limit the whole list is returned in insertion order.  Both services. *)
Theorem list_items_nonneg_limit (k : Z) (Hk : 0 <= k) :
  (forall items : list custom_base_model.Item,
      custom_base_model.list_items (Some k) items
      = (Return (take (Z.to_nat (Z.min k (len items))) items), items)
      /\ len (take (Z.to_nat (Z.min k (len items))) items) = Z.min k (len items)
      /\ (len items <= k ->
          custom_base_model.list_items (Some k) items = (Return items, items))
      /\ custom_base_model.list_items None items = (Return items, items))
  /\ (forall items : list string,
        simple_server.list_items (Some k) items
        = (Return (take (Z.to_nat (Z.min k (len items))) items), items)
        /\ len (take (Z.to_nat (Z.min k (len items))) items) = Z.min k (len items)
        /\ (len items <= k ->
            simple_server.list_items (Some k) items = (Return items, items))
        /\ simple_server.list_items None items = (Return items, items)).
Proof.
  split; intros items.
  - rewrite typed_list_items_some_eq, slice_0_nonneg by done.
    split_and!; [done|by apply len_take_min| |done].
    intros Hlen. rewrite take_ge; [done|]. unfold len in *. lia.
  - rewrite untyped_list_items_some_eq, slice_0_nonneg by done.
    split_and!; [done|by apply len_take_min| |done].
    intros Hlen. rewrite take_ge; [done|]. unfold len in *. lia.
Qed.

Lemma list_items_nonneg_limit_witness :
  0 <= 2
  /\ simple_server.list_items (Some 2) ["a"; "b"; "c"]%string
     = (Return ["a"; "b"]%string, ["a"; "b"; "c"]%string)
  /\ simple_server.list_items (Some 2) ["a"]%string
     = (Return ["a"]%string, ["a"]%string).
Proof.
  assert (0 <= 2) as H by lia.
  split; [exact H|].
  split.
  - exact (proj1 (proj2 (list_items_nonneg_limit 2 H) ["a"; "b"; "c"]%string)).
  - exact (proj1 (proj2 (list_items_nonneg_limit 2 H) ["a"]%string)).
Defined.

(** C4. The list is append-only.  Serving one request, whichever route it
    takes, leaves the list as it was or extends it by exactly one item at
    the end; so over any run of requests from any list, the list at the
    start is a prefix of the list at the end: an item once created stays at
    its index, the order of insertion is kept, and nothing is changed in
    place or deleted.  Both services. *)
Theorem items_append_only :
  (forall (r : custom_base_model.request) (items : list custom_base_model.Item),
      (custom_base_model.handle r items).2 = items
      \/ exists item, (custom_base_model.handle r items).2 = items ++ [item])
  /\ (forall (rs : list custom_base_model.request) items,
        items `prefix_of` custom_base_model.serve rs items
        /\ forall (i : nat) item,
            items !! i = Some item ->
            custom_base_model.serve rs items !! i = Some item)
  /\ (forall (r : simple_server.request) (items : list string),
        (simple_server.handle r items).2 = items
        \/ exists item, (simple_server.handle r items).2 = items ++ [item])
  /\ (forall (rs : list simple_server.request) items,
        items `prefix_of` simple_server.serve rs items
        /\ forall (i : nat) item,
            items !! i = Some item ->
            simple_server.serve rs items !! i = Some item).
Proof.
  split_and!.
  - intros r items.
    destruct (typed_handle_state r items) as [?|(x & _ & ?)]; eauto.
  - intros rs items. pose proof (typed_serve_extends rs items) as Hpre.
    split; [done|]. intros i item Hi. by eapply prefix_lookup_Some.
  - intros r items.
    destruct (untyped_handle_state r items) as [?|(x & _ & ?)]; eauto.
  - intros rs items. pose proof (untyped_serve_extends rs items) as Hpre.
    split; [done|]. intros i item Hi. by eapply prefix_lookup_Some.
Qed.

(** C5. On an index out of range, [get_item] of the typed service fails
    with the detail [Item {i} not found], and [get_item] of the untyped
    service with the detail [Index {i} out of range {length}], the length
    being that of the list at the time of the call.  On the empty list,
    [get_item 0] of the typed service fails with [Item 0 not found]. *)
Theorem get_item_not_found_detail :
  (forall (items : list custom_base_model.Item) (i : Z),
      i < 0 \/ i >= len items ->
      custom_base_model.get_item i items
      = (Raise (HTTPException 404 ("Item " +:+ str i +:+ " not found")), items))
  /\ (forall (items : list string) (i : Z),
        i < 0 \/ i >= len items ->
        simple_server.get_item i items
        = (Raise (HTTPException 404
                    ("Index " +:+ str i +:+ " out of range "
                       +:+ str (len items))), items))
  /\ custom_base_model.get_item 0 []
     = (Raise (HTTPException 404 "Item 0 not found"), [])
  /\ simple_server.get_item 7 ["a"; "b"]%string
     = (Raise (HTTPException 404 "Index 7 out of range 2"), ["a"; "b"]%string)
  /\ simple_server.get_item (-3) []
     = (Raise (HTTPException 404 "Index -3 out of range 0"), []).
Proof.
  split_and!.
  - intros items i. apply typed_get_item_out_eq.
  - intros items i. apply untyped_get_item_out_eq.
  - reflexivity.
  - vm_compute. reflexivity.
  - vm_compute. reflexivity.
Qed.

(** C6. On a fresh typed service, creating an item from the body
    [{"name": "Apple", "price": 1.5}], which carries neither a description
    nor a quantity, and then listing without a limit, yields exactly one
    item, of name ["Apple"], description [None], price [1.5] and quantity
    [1]: an absent description defaults to [None] and an absent quantity to
    [1], whatever the name and the price. *)
Theorem create_apple_then_list :
  (custom_base_model.create_item
     (custom_base_model.Item_new "Apple" None 1.5 None);;
   custom_base_model.list_items None) []
  = (Return [ {| custom_base_model.name := "Apple";
                 custom_base_model.description := None;
                 custom_base_model.price := 1.5;
                 custom_base_model.quantity := 1 |} ],
     [ {| custom_base_model.name := "Apple";
          custom_base_model.description := None;
          custom_base_model.price := 1.5;
          custom_base_model.quantity := 1 |} ])
  /\ (forall (name : string) (price : float),
        custom_base_model.Item_new name None price None
        = {| custom_base_model.name := name;
             custom_base_model.description := None;
             custom_base_model.price := price;
             custom_base_model.quantity := 1 |}).
Proof. split; reflexivity. Qed.

(** C7. When [get_item] fails because the index lies outside
    [0, len items), the list is left as it was: the call ends with the 404
    exception and the list after it equals the list before it.  Both
    services. *)
Theorem get_item_not_found_keeps_items :
  (forall (items : list custom_base_model.Item) (i : Z),
      i < 0 \/ i >= len items ->
      (exists detail,
          (custom_base_model.get_item i items).1
          = Raise (HTTPException 404 detail))
      /\ (custom_base_model.get_item i items).2 = items)
  /\ (forall (items : list string) (i : Z),
        i < 0 \/ i >= len items ->
        (exists detail,
            (simple_server.get_item i items).1
            = Raise (HTTPException 404 detail))
        /\ (simple_server.get_item i items).2 = items).
Proof.
  split; intros items i Hout.
  - rewrite typed_get_item_out_eq by done. cbn. eauto.
  - rewrite untyped_get_item_out_eq by done. cbn. eauto.
Qed.

(** C9. For every list and every negative limit [l], [list_items] with
    [limit = l] returns the first [max (len items + l) 0] items, that is the
    list without its last [-l] items; when [-l >= len items] the result is
    the empty list, and never an error.  Both services. *)
Theorem list_items_negative_limit (l : Z) (Hl : l < 0) :
  (forall items : list custom_base_model.Item,
      custom_base_model.list_items (Some l) items
      = (Return (take (Z.to_nat (Z.max (len items + l) 0)) items), items)
      /\ (- l >= len items ->
          custom_base_model.list_items (Some l) items = (Return [], items)))
  /\ (forall items : list string,
        simple_server.list_items (Some l) items
        = (Return (take (Z.to_nat (Z.max (len items + l) 0)) items), items)
        /\ (- l >= len items ->
            simple_server.list_items (Some l) items = (Return [], items))).
Proof.
  split; intros items.
  - rewrite typed_list_items_some_eq, slice_0_neg by done.
    split; [done|]. intros Hge.
    replace (Z.to_nat _) with 0%nat by lia. done.
  - rewrite untyped_list_items_some_eq, slice_0_neg by done.
    split; [done|]. intros Hge.
    replace (Z.to_nat _) with 0%nat by lia. done.
Qed.

Lemma list_items_negative_limit_witness :
  -1 < 0
  /\ simple_server.list_items (Some (-1)) ["a"; "b"; "c"]%string
     = (Return ["a"; "b"]%string, ["a"; "b"; "c"]%string)
  /\ simple_server.list_items (Some (-1)) [] = (Return [], []).
Proof.
  assert (-1 < 0) as H by lia.
  split; [exact H|].
  split.
  - exact (proj1 (proj2 (list_items_negative_limit (-1) H)
                    ["a"; "b"; "c"]%string)).
  - exact (proj1 (proj2 (list_items_negative_limit (-1) H) [])).
Defined.

(** C10. The reading handlers never modify the list: for every list, every
    limit (absent, negative or not) and every index (in range or not), the
    list after [list_items] or [get_item] equals the list before it.  Only
    [create_item] changes it: the list after a create is never the list
    before it.  Both services. *)
Theorem reads_keep_items :
  (forall (items : list custom_base_model.Item),
      (forall limit, (custom_base_model.list_items limit items).2 = items)
      /\ (forall i, (custom_base_model.get_item i items).2 = items)
      /\ (forall item, (custom_base_model.create_item item items).2 <> items))
  /\ (forall (items : list string),
        (forall limit, (simple_server.list_items limit items).2 = items)
        /\ (forall i, (simple_server.get_item i items).2 = items)
        /\ (forall item, (simple_server.create_item item items).2 <> items)).
Proof.
  split; intros items; split_and!.
  - by intros [limit|].
  - intros i. apply typed_get_item_state.
  - intros item. rewrite typed_create_item_eq. cbn.
    intros Heq%(f_equal length). rewrite length_app in Heq. cbn in Heq. lia.
  - by intros [limit|].
  - intros i. apply untyped_get_item_state.
  - intros item. rewrite untyped_create_item_eq. cbn.
    intros Heq%(f_equal length). rewrite length_app in Heq. cbn in Heq. lia.
Qed.

(** ** The contract of the image service *)

(** C8. [GET /image] answers with the fixed local asset re-encoded as PNG:
    when OpenCV reads [sheep.jpg] and its encoder keeps the PNG contract,
    [get_image] returns a response whose body is the buffer encoded for
    [.png], whose first eight bytes are the PNG signature
    89 50 4E 47 0D 0A 1A 0A, and whose content type is [image/png]; the
    handler leaves the state of the process as it was. *)
Theorem get_image_png_signature {image S : Type}
    (imread : string -> option image)
    (imencode : string -> image -> list Byte.byte)
    (img : image) (s : S)
    (Hread : imread "sheep.jpg" = Some img)
    (Hpng : image_server.encodes_png imencode) :
  exists resp,
    image_server.get_image imread imencode s = (Return resp, s)
    /\ image_server.body resp = imencode ".png" img
    /\ take 8%nat (image_server.body resp) = image_server.png_signature
    /\ image_server.media_type resp = "image/png".
Proof.
  rewrite (image_server.get_image_streams_encoder_output _ _ s img Hread).
  eexists. split; [reflexivity|].
  cbn [image_server.body image_server.media_type].
  split_and!; [done|apply Hpng|done].
Qed.

Lemma get_image_png_signature_witness :
  exists resp,
    image_server.get_image
      (fun path => if String.eqb path "sheep.jpg"
                   then Some [x2a; x07] else None)
      (fun ext img => if String.eqb ext ".png"
                      then image_server.png_signature ++ img else img)
      tt
    = (Return resp, tt)
    /\ image_server.body resp = image_server.png_signature ++ [x2a; x07]
    /\ take 8%nat (image_server.body resp) = image_server.png_signature
    /\ image_server.media_type resp = "image/png".
Proof.
  exact (get_image_png_signature
           (fun path => if String.eqb path "sheep.jpg"
                        then Some [x2a; x07] else None)
           (fun ext img => if String.eqb ext ".png"
                           then image_server.png_signature ++ img else img)
           [x2a; x07] tt eq_refl (fun img => eq_refl)).
Defined.

(** ** Further properties of the services *)

(** *** Reading an integer back from a detail *)

Section details.
Implicit Types (s t : string) (x : N) (i j : Z).

Lemma pretty_N_char_not_space x : pretty_N_char x <> " "%char.
Proof. unfold pretty_N_char. by repeat case_match. Qed.

Lemma pretty_N_go_no_space x s : no_space s -> no_space (pretty_N_go x s).
Proof.
  revert s. induction (N.lt_wf_0 x) as [x _ IH]; intros s Hs.
  assert (x = 0 \/ 0 < x)%N as [->|Hpos] by lia.
  - by rewrite pretty_N_go_0.
  - rewrite pretty_N_go_step by done. apply IH.
    + by apply N.div_lt.
    + split; [apply pretty_N_char_not_space|done].
Qed.

Lemma pretty_N_no_space x : no_space (pretty x).
Proof.
  unfold pretty, pretty_N. case_decide.
  - by cbn.
  - by apply pretty_N_go_no_space.
Qed.

(** The decimal rendering of an integer holds no blank. *)
Lemma str_no_space i : no_space (str i).
Proof.
  unfold str, pretty, pretty_Z. destruct i as [|p|p].
  - by cbn.
  - apply pretty_N_no_space.
  - change ("-" +:+ ?t)%string with (String "-"%char t).
    split; [done|apply pretty_N_no_space].
Qed.

(** Two blank-free words, each followed by a blank and some text, give the
    same string only when the words and the texts are the same. *)
Lemma no_space_split s1 s2 t1 t2 :
  no_space s1 -> no_space s2 ->
  (s1 +:+ String " "%char t1 = s2 +:+ String " "%char t2)%string ->
  s1 = s2 /\ t1 = t2.
Proof.
  revert s2. induction s1 as [|c1 s1 IH]; intros [|c2 s2] H1 H2 Heq;
    cbn in Heq.
  - by injection Heq.
  - injection Heq as Hc _. destruct H2 as [Hc2 _]. by destruct Hc2.
  - injection Heq as Hc _. destruct H1 as [Hc1 _]. by destruct Hc1.
  - injection Heq as -> Heq. destruct H1 as [_ H1], H2 as [_ H2].
    destruct (IH s2 H1 H2 Heq) as [-> ->]. done.
Qed.

Lemma str_inj i j : str i = str j -> i = j.
Proof. unfold str. apply (inj pretty). Qed.

End details.

(** *** Prefixes cut by a slice *)

Section slices.
Context {A : Type}.
Implicit Types (l p : list A) (k : Z).

Lemma len_app l p : len (l ++ p) = len l + len p.
Proof. unfold len. rewrite length_app. lia. Qed.

Lemma slice_0_prefix l k : slice l 0 k `prefix_of` l.
Proof. rewrite slice_0. apply prefix_take. Qed.

Lemma adjust_index_mono n k1 k2 :
  0 <= n -> k1 <= k2 -> 0 <= k1 \/ k2 < 0 ->
  0 <= adjust_index n k1 <= adjust_index n k2.
Proof.
  intros Hn Hle [Hpos|Hneg].
  - rewrite !adjust_index_nonneg by lia. lia.
  - rewrite !adjust_index_neg by lia. lia.
Qed.

Lemma slice_0_mono l k1 k2 :
  k1 <= k2 -> 0 <= k1 \/ k2 < 0 -> slice l 0 k1 `prefix_of` slice l 0 k2.
Proof.
  intros Hle Hsign. rewrite !slice_0.
  pose proof (adjust_index_mono (len l) k1 k2 (len_nonneg l) Hle Hsign).
  replace (take (Z.to_nat (adjust_index (len l) k1)) l)
    with (take (Z.to_nat (adjust_index (len l) k1))
            (take (Z.to_nat (adjust_index (len l) k2)) l)).
  - apply prefix_take.
  - rewrite take_take. f_equal. lia.
Qed.

Lemma slice_0_app_le l p k :
  0 <= k <= len l -> slice (l ++ p) 0 k = slice l 0 k.
Proof.
  intros Hk. pose proof (len_nonneg p).
  rewrite !slice_0_nonneg by lia. rewrite len_app.
  rewrite !Z.min_l by lia. apply take_app_le. unfold len in Hk. lia.
Qed.

End slices.

(** *** The typed service, request after request *)

Section typed_runs.
Import custom_base_model.
Implicit Types (items : list Item) (item : Item).

Lemma typed_handle_posted r items :
  (handle r items).2 = items ++ posted [r].
Proof.
  destruct r as [item|[limit|]|item_id];
    [done|by cbn; rewrite app_nil_r..|].
  cbn [posted omap list_omap app]. rewrite app_nil_r.
  pose proof (typed_get_item_state item_id items) as Hs.
  unfold handle, mbind, M_bind, bind.
  by destruct (get_item item_id items) as [[?|?] ?].
Qed.

Lemma typed_serve_posted rs items : serve rs items = items ++ posted rs.
Proof.
  revert items. induction rs as [|r rs IH]; intros items.
  - cbn. by rewrite app_nil_r.
  - cbn [serve foldl]. change (foldl _ ?s ?rs) with (serve rs s).
    rewrite IH, typed_handle_posted, <- app_assoc. f_equal.
    by destruct r.
Qed.

(** [get_item] returns [item] exactly when the index is within the bounds
    and [item] is what the list holds there. *)
Lemma typed_get_item_return i item items :
  (get_item i items).1 = Return item
  <-> 0 <= i < len items /\ items !! Z.to_nat i = Some item.
Proof.
  destruct (decide (0 <= i < len items)) as [Hin|Hout].
  - destruct (typed_get_item_in_eq i items Hin) as (x & Hx & ->). cbn.
    split; [by intros [= <-]|]. intros [_ Hi]. congruence.
  - rewrite typed_get_item_out_eq by lia. cbn. split; [done|tauto].
Qed.

(** A failing [get_item] is the 404 of an index outside the bounds. *)
Lemma typed_get_item_raise i e items :
  (get_item i items).1 = Raise e ->
  (i < 0 \/ i >= len items)
  /\ e = HTTPException 404 ("Item " +:+ str i +:+ " not found").
Proof.
  destruct (decide (0 <= i < len items)) as [Hin|Hout].
  - by destruct (typed_get_item_in_eq i items Hin) as (x & Hx & ->).
  - rewrite typed_get_item_out_eq by lia. cbn. intros [= <-]. split; [lia|done].
Qed.

(** [list_items] always returns, and what it returns is a prefix of the
    list. *)
Lemma typed_list_items_prefix limit items :
  exists l, list_items limit items = (Return l, items)
            /\ l `prefix_of` items /\ len l <= len items.
Proof.
  destruct limit as [k|].
  - exists (slice items 0 k). pose proof (slice_0_prefix items k) as Hp.
    split_and!; [done..|]. apply prefix_length in Hp. unfold len. lia.
  - exists items. split_and!; [done..|lia].
Qed.

End typed_runs.

(** *** The untyped service, request after request *)

Section untyped_runs.
Import simple_server.
Implicit Types (items : list string) (item : string).

Lemma untyped_handle_posted r items :
  (handle r items).2 = items ++ posted [r].
Proof.
  destruct r as [|item|[limit|]|item_id];
    [by cbn; rewrite app_nil_r|done|by cbn; rewrite app_nil_r..|].
  cbn [posted omap list_omap app]. rewrite app_nil_r.
  pose proof (untyped_get_item_state item_id items) as Hs.
  unfold handle, mbind, M_bind, bind.
  by destruct (get_item item_id items) as [[?|?] ?].
Qed.

Lemma untyped_serve_posted rs items : serve rs items = items ++ posted rs.
Proof.
  revert items. induction rs as [|r rs IH]; intros items.
  - cbn. by rewrite app_nil_r.
  - cbn [serve foldl]. change (foldl _ ?s ?rs) with (serve rs s).
    rewrite IH, untyped_handle_posted, <- app_assoc. f_equal.
    by destruct r.
Qed.

(** [get_item] returns [item] exactly when the index is within the bounds
    and [item] is what the list holds there. *)
Lemma untyped_get_item_return i item items :
  (get_item i items).1 = Return item
  <-> 0 <= i < len items /\ items !! Z.to_nat i = Some item.
Proof.
  destruct (decide (0 <= i < len items)) as [Hin|Hout].
  - destruct (untyped_get_item_in_eq i items Hin) as (x & Hx & ->). cbn.
    split; [by intros [= <-]|]. intros [_ Hi]. congruence.
  - rewrite untyped_get_item_out_eq by lia. cbn. split; [done|tauto].
Qed.

(** A failing [get_item] is the 404 of an index outside the bounds. *)
Lemma untyped_get_item_raise i e items :
  (get_item i items).1 = Raise e ->
  (i < 0 \/ i >= len items)
  /\ e = HTTPException 404
           ("Index " +:+ str i +:+ " out of range " +:+ str (len items)).
Proof.
  destruct (decide (0 <= i < len items)) as [Hin|Hout].
  - by destruct (untyped_get_item_in_eq i items Hin) as (x & Hx & ->).
  - rewrite untyped_get_item_out_eq by lia. cbn. intros [= <-]. split; [lia|done].
Qed.

(** [list_items] always returns, and what it returns is a prefix of the
    list. *)
Lemma untyped_list_items_prefix limit items :
  exists l, list_items limit items = (Return l, items)
            /\ l `prefix_of` items /\ len l <= len items.
Proof.
  destruct limit as [k|].
  - exists (slice items 0 k). pose proof (slice_0_prefix items k) as Hp.
    split_and!; [done..|]. apply prefix_length in Hp. unfold len. lia.
  - exists items. split_and!; [done..|lia].
Qed.

End untyped_runs.

(** *** What a run of requests leaves behind *)

(** X1. Whatever requests are served and in whatever order, the list
    afterwards is the list before followed by the bodies of the
    [POST /items] requests, in the order they arrived: the reads in
    between, failed or not, add and remove nothing.  Both services. *)
Theorem serve_appends_posted :
  (forall (rs : list custom_base_model.request) items,
      custom_base_model.serve rs items
      = items ++ custom_base_model.posted rs)
  /\ (forall (rs : list simple_server.request) items,
        simple_server.serve rs items = items ++ simple_server.posted rs).
Proof.
  split; [apply typed_serve_posted|apply untyped_serve_posted].
Qed.

(** X2. An item just created is found at the index that was the length of
    the list before the create: [create_item item] followed by
    [get_item (len items)] returns [item].  Both services. *)
Theorem create_then_get_item :
  (forall (item : custom_base_model.Item) items,
      (custom_base_model.create_item item;;
       custom_base_model.get_item (len items)) items
      = (Return item, items ++ [item]))
  /\ (forall (item : string) items,
        (simple_server.create_item item;;
         simple_server.get_item (len items)) items
        = (Return item, items ++ [item])).
Proof.
  split; intros item items.
  - destruct (typed_get_item_in_eq (len items) (items ++ [item]))
      as (x & Hx & Heq).
    { rewrite len_app. pose proof (len_nonneg items).
      change (len [item]) with 1. lia. }
    unfold len in Hx. rewrite Nat2Z.id, list_lookup_middle in Hx by done.
    injection Hx as <-. exact Heq.
  - destruct (untyped_get_item_in_eq (len items) (items ++ [item]))
      as (x & Hx & Heq).
    { rewrite len_app. pose proof (len_nonneg items).
      change (len [item]) with 1. lia. }
    unfold len in Hx. rewrite Nat2Z.id, list_lookup_middle in Hx by done.
    injection Hx as <-. exact Heq.
Qed.

(** X3. [list_items] never fails, whatever the limit (absent, zero,
    positive or negative): it returns a prefix of the list, hence never
    more items than the list holds and never an item out of its place.
    Both services. *)
Theorem list_items_returns_prefix :
  (forall limit (items : list custom_base_model.Item),
      exists l, custom_base_model.list_items limit items = (Return l, items)
                /\ l `prefix_of` items /\ len l <= len items)
  /\ (forall limit (items : list string),
        exists l, simple_server.list_items limit items = (Return l, items)
                  /\ l `prefix_of` items /\ len l <= len items).
Proof.
  split; intros limit items.
  - apply typed_list_items_prefix.
  - apply untyped_list_items_prefix.
Qed.

(** X4. Listing and retrieval agree on positions: if [list_items], with
    any limit, returns a list holding [item] at position [n], then
    [get_item n] returns that same [item].  Both services. *)
Theorem listed_item_is_get_item :
  (forall limit (items l : list custom_base_model.Item) (n : nat) item,
      (custom_base_model.list_items limit items).1 = Return l ->
      l !! n = Some item ->
      custom_base_model.get_item (Z.of_nat n) items = (Return item, items))
  /\ (forall limit (items l : list string) (n : nat) item,
        (simple_server.list_items limit items).1 = Return l ->
        l !! n = Some item ->
        simple_server.get_item (Z.of_nat n) items = (Return item, items)).
Proof.
  split; intros limit items l n item Hl Hn.
  - destruct (typed_list_items_prefix limit items)
      as (l' & Heq & Hpre & _).
    rewrite Heq in Hl. injection Hl as ->.
    pose proof (prefix_lookup_Some _ _ _ _ Hn Hpre) as Hi.
    pose proof (lookup_lt_Some _ _ _ Hi) as Hlt.
    destruct (typed_get_item_in_eq (Z.of_nat n) items) as (x & Hx & ->).
    { unfold len. lia. }
    rewrite Nat2Z.id in Hx. congruence.
  - destruct (untyped_list_items_prefix limit items)
      as (l' & Heq & Hpre & _).
    rewrite Heq in Hl. injection Hl as ->.
    pose proof (prefix_lookup_Some _ _ _ _ Hn Hpre) as Hi.
    pose proof (lookup_lt_Some _ _ _ Hi) as Hlt.
    destruct (untyped_get_item_in_eq (Z.of_nat n) items) as (x & Hx & ->).
    { unfold len. lia. }
    rewrite Nat2Z.id in Hx. congruence.
Qed.

Lemma listed_item_is_get_item_witness :
  simple_server.get_item 1 ["a"; "b"; "c"]%string
  = (Return "b"%string, ["a"; "b"; "c"]%string).
Proof.
  exact (proj2 listed_item_is_get_item (Some 2) ["a"; "b"; "c"]%string
           ["a"; "b"]%string 1%nat "b"%string eq_refl eq_refl).
Defined.

(** X5. An answer of [get_item] stays valid for the life of the process:
    if [get_item i] returns [item], it returns the same [item] after any
    further requests have been served.  Both services. *)
Theorem get_item_stable_under_requests :
  (forall (i : Z) (items : list custom_base_model.Item) item rs,
      (custom_base_model.get_item i items).1 = Return item ->
      (custom_base_model.get_item i (custom_base_model.serve rs items)).1
      = Return item)
  /\ (forall (i : Z) (items : list string) item rs,
        (simple_server.get_item i items).1 = Return item ->
        (simple_server.get_item i (simple_server.serve rs items)).1
        = Return item).
Proof.
  split; intros i items item rs Hret.
  - apply typed_get_item_return in Hret as [Hin Hi].
    apply typed_get_item_return. rewrite typed_serve_posted, len_app.
    pose proof (len_nonneg (custom_base_model.posted rs)).
    split; [lia|by apply lookup_app_l_Some].
  - apply untyped_get_item_return in Hret as [Hin Hi].
    apply untyped_get_item_return. rewrite untyped_serve_posted, len_app.
    pose proof (len_nonneg (simple_server.posted rs)).
    split; [lia|by apply lookup_app_l_Some].
Qed.

Lemma get_item_stable_under_requests_witness :
  (simple_server.get_item 0
     (simple_server.serve
        [simple_server.POST_items "b"; simple_server.GET_items_id 9]
        ["a"]%string)).1
  = Return "a"%string.
Proof.
  exact (proj2 get_item_stable_under_requests 0 ["a"]%string "a"%string
           [simple_server.POST_items "b"; simple_server.GET_items_id 9]
           eq_refl).
Defined.

(** X6. A page that is already full does not change: for a limit [k] with
    [0 <= k <= len items], [list_items] with [limit = k] returns the same
    [k] items after any further requests have been served.  Both
    services. *)
Theorem full_page_stable_under_requests :
  (forall (k : Z) (items : list custom_base_model.Item) rs,
      0 <= k <= len items ->
      (custom_base_model.list_items (Some k)
         (custom_base_model.serve rs items)).1
      = (custom_base_model.list_items (Some k) items).1)
  /\ (forall (k : Z) (items : list string) rs,
        0 <= k <= len items ->
        (simple_server.list_items (Some k) (simple_server.serve rs items)).1
        = (simple_server.list_items (Some k) items).1).
Proof.
  split; intros k items rs Hk.
  - rewrite typed_serve_posted, !typed_list_items_some_eq. cbn.
    by rewrite slice_0_app_le.
  - rewrite untyped_serve_posted, !untyped_list_items_some_eq. cbn.
    by rewrite slice_0_app_le.
Qed.

Lemma full_page_stable_under_requests_witness :
  (simple_server.list_items (Some 1)
     (simple_server.serve [simple_server.POST_items "c"]
        ["a"; "b"]%string)).1
  = (simple_server.list_items (Some 1) ["a"; "b"]%string).1.
Proof.
  refine (proj2 full_page_stable_under_requests 1 ["a"; "b"]%string
            [simple_server.POST_items "c"] _).
  vm_compute. split; discriminate.
Defined.

(** X7. Between two limits of the same sign, the larger one only adds
    items at the end: for [k1 <= k2], both non-negative or both negative,
    what [list_items] returns for [k1] is a prefix of what it returns for
    [k2].  Both services. *)
Theorem list_items_limit_monotone (k1 k2 : Z)
    (Hle : k1 <= k2) (Hsign : 0 <= k1 \/ k2 < 0) :
  (forall items : list custom_base_model.Item,
      exists l1 l2,
        custom_base_model.list_items (Some k1) items = (Return l1, items)
        /\ custom_base_model.list_items (Some k2) items = (Return l2, items)
        /\ l1 `prefix_of` l2)
  /\ (forall items : list string,
        exists l1 l2,
          simple_server.list_items (Some k1) items = (Return l1, items)
          /\ simple_server.list_items (Some k2) items = (Return l2, items)
          /\ l1 `prefix_of` l2).
Proof.
  split; intros items;
    exists (slice items 0 k1), (slice items 0 k2);
    (split_and!; [done..|by apply slice_0_mono]).
Qed.

Lemma list_items_limit_monotone_witness :
  -2 <= -1 /\ (0 <= -2 \/ -1 < 0)
  /\ exists l1 l2,
      simple_server.list_items (Some (-2)) ["a"; "b"; "c"]%string
      = (Return l1, ["a"; "b"; "c"]%string)
      /\ simple_server.list_items (Some (-1)) ["a"; "b"; "c"]%string
         = (Return l2, ["a"; "b"; "c"]%string)
      /\ l1 `prefix_of` l2.
Proof.
  assert (-2 <= -1) as Hle by lia.
  assert (0 <= -2 \/ -1 < 0) as Hsign by lia.
  split; [exact Hle|]. split; [exact Hsign|].
  exact (proj2 (list_items_limit_monotone (-2) (-1) Hle Hsign)
           ["a"; "b"; "c"]%string).
Defined.

(** X8. The detail of a 404 tells which index was asked for: two failing
    calls of [get_item] of the typed service with the same detail were
    made with the same index, and two failing calls of the untyped service
    with the same detail were made with the same index on lists of the
    same length. *)
Theorem not_found_detail_identifies_index :
  (forall (i j : Z) (items items' : list custom_base_model.Item) detail,
      (custom_base_model.get_item i items).1
      = Raise (HTTPException 404 detail) ->
      (custom_base_model.get_item j items').1
      = Raise (HTTPException 404 detail) ->
      i = j)
  /\ (forall (i j : Z) (items items' : list string) detail,
        (simple_server.get_item i items).1
        = Raise (HTTPException 404 detail) ->
        (simple_server.get_item j items').1
        = Raise (HTTPException 404 detail) ->
        i = j /\ len items = len items').
Proof.
  split; intros i j items items' detail Hi Hj.
  - apply typed_get_item_raise in Hi as [_ [= Hi]].
    apply typed_get_item_raise in Hj as [_ [= Hj]].
    rewrite Hi in Hj. apply (inj (String.app "Item ")) in Hj.
    apply no_space_split in Hj as [Hij _]; auto using str_no_space.
    by apply str_inj.
  - apply untyped_get_item_raise in Hi as [_ [= Hi]].
    apply untyped_get_item_raise in Hj as [_ [= Hj]].
    rewrite Hi in Hj. apply (inj (String.app "Index ")) in Hj.
    apply no_space_split in Hj as [Hij Hlen]; auto using str_no_space.
    apply (inj (String.app "out of range ")) in Hlen.
    split; by apply str_inj.
Qed.

Lemma not_found_detail_identifies_index_witness :
  5 = 5 /\ len ["a"; "b"]%string = len ["c"; "d"]%string.
Proof.
  exact (proj2 not_found_detail_identifies_index 5 5
           ["a"; "b"]%string ["c"; "d"]%string
           "Index 5 out of range 2"%string eq_refl eq_refl).
Defined.

(** X9. On a process started with an empty list, the index of an item is
    the number of creates served before its own: after any run of
    requests, [get_item n] returns [item] exactly when [item] is the body
    of the [n]-th [POST /items] of the run, counting from 0.  Both
    services. *)
Theorem get_item_finds_nth_posted :
  (forall (rs : list custom_base_model.request) (n : nat) item,
      (custom_base_model.get_item (Z.of_nat n)
         (custom_base_model.serve rs [])).1 = Return item
      <-> custom_base_model.posted rs !! n = Some item)
  /\ (forall (rs : list simple_server.request) (n : nat) item,
        (simple_server.get_item (Z.of_nat n)
           (simple_server.serve rs [])).1 = Return item
        <-> simple_server.posted rs !! n = Some item).
Proof.
  split; intros rs n item.
  - rewrite typed_get_item_return, typed_serve_posted, Nat2Z.id, app_nil_l.
    split; [by intros [_ ?]|]. intros Hn. split; [|done].
    apply lookup_lt_Some in Hn. unfold len. lia.
  - rewrite untyped_get_item_return, untyped_serve_posted, Nat2Z.id, app_nil_l.
    split; [by intros [_ ?]|]. intros Hn. split; [|done].
    apply lookup_lt_Some in Hn. unfold len. lia.
Qed.
